(** * The agent relay of the Currency Conversion Expert service

    A shallow embedding of [main.py]: the streaming relay
    [stream_agent_progress] (an async generator of server-sent events) and
    the buffered relay [query_agent] (one JSON outcome or an HTTP failure),
    with the properties of the relay section of the specification.

    The agent SDK is an external collaborator.  Its message types are
    declared here from the way the source inspects them; its two callables
    ([ClaudeAgentOptions] and [query]) and the wall clock are variables of
    the development. *)

From Stdlib Require Import String Ascii DecimalString List ZArith QArith.
From Stdlib Require Import Bool Lia.
Import ListNotations.
Local Close Scope Q_scope.
Local Open Scope string_scope.
Local Open Scope list_scope.

Set Implicit Arguments.
Local Set Warnings "-register-all".

(** ** Python values *)

(** JSON-serialisable Python values: what [json.dumps] accepts.  A [dict]
    keeps its keys in insertion order, hence the association list. *)
Inductive Json : Type :=
| JNone
| JBool (b : bool)
| JInt (z : Z)
| JFloat (q : Q)
| JStr (s : string)
| JList (l : list Json)
| JDict (d : list (string * Json)).

Definition dict : Type := list (string * Json).

(** [d.get(k)] on such a dict. *)
Fixpoint dict_get (k : string) (d : dict) : option Json :=
  match d with
  | [] => None
  | (k', v) :: d' => if String.eqb k k' then Some v else dict_get k d'
  end.

(** [x or {}] for [x] that is [None] or a dict: an empty dict is falsy. *)
Definition or_empty_dict (x : option dict) : dict :=
  match x with
  | None => []
  | Some [] => []
  | Some d => d
  end.

(** An instance of Python's [Exception]; only [str(e)] is ever observed. *)
Inductive PyException : Type := Exception (msg : string).

Definition str (e : PyException) : string :=
  match e with Exception msg => msg end.

(** The result of evaluating a Python expression that may raise. *)
Inductive Outcome (A : Type) : Type :=
| Ok (a : A)
| Raised (e : PyException).
Arguments Ok {A} a.
Arguments Raised {A} e.

(** ** The SDK's message types *)

(** Modelled from the spec: the content blocks of [claude_agent_sdk.types]
    (the package is not part of the repository).  The source imports and
    tests for [TextBlock] and [ToolUseBlock], of which it reads [text],
    [name] and [input], and imports [ToolResultBlock]; the SDK's thinking
    block stands for the block classes it does not import. *)
Inductive ContentBlock : Type :=
| TextBlock (text : string)
| ThinkingBlock (thinking : string)
| ToolUseBlock (name : string) (input : dict)
| ToolResultBlock (tool_use_id : string) (content : Json).

(** Modelled from the spec: the fields of the SDK's [ResultMessage] that
    the relay reads.  The cost is a float or [None]; it is carried, never
    computed with. *)
Record ResultFields : Type := {
  duration_ms : Z;
  total_cost_usd : option Q;
  num_turns : Z;
  session_id : string
}.

(** Modelled from the spec: the SDK's [Message] union.  The relay tests for
    [AssistantMessage] and [ResultMessage]; user and system messages stand
    for the variants it does not test for. *)
Inductive Message : Type :=
| UserMessage (content : list ContentBlock)
| AssistantMessage (content : list ContentBlock)
| SystemMessage (subtype : string) (data : dict)
| ResultMessage (r : ResultFields).

(** What the async iterator returned by [query] does when it is driven to
    its end: it yields a message and goes on, or is exhausted, or raises. *)
Inductive AgentStream : Type :=
| SEnd
| SRaise (e : PyException)
| SYield (m : Message) (rest : AgentStream).

(** The stream that yields [ms] and then behaves as [s]. *)
Fixpoint yields (ms : list Message) (s : AgentStream) : AgentStream :=
  match ms with
  | [] => s
  | m :: ms' => SYield m (yields ms' s)
  end.

(** ** The service's own data *)

Record QueryRequest : Type := {
  prompt : string;
  max_turns : Z
}.

(** [usage] and [agent_info] default to [None] in the class; the relay
    always passes a dict. *)
Record QueryResponse : Type := {
  status : string;
  response : string;
  usage : dict;
  agent_info : dict
}.

(** The event dict built by [create_event]; the generator yields it framed
    as the line [data: <json.dumps(event)>] followed by an empty line,
    which is kept structured here. *)
Record StreamEvent : Type := {
  type : string;
  data : dict;
  timestamp : string
}.

(** What [HTTPException(status_code=..., detail=...)] carries. *)
Record HTTPException : Type := {
  status_code : Z;
  detail : string
}.

Module AGENT_CONFIG.
Definition name : string := "Currency Conversion Expert".
Definition role : string :=
  "Financial Data Analyst specializing in currency exchange rates".
Definition tools : list string :=
  ["WebSearch"; "WebFetch"; "Read"; "Write"; "Bash"].
Definition system_prompt : string :=
  "You are a Currency Conversion Expert Agent with deep expertise in financial data analysis and currency markets. Your primary role is to provide accurate, up-to-date currency conversion rates for major world currencies.

Your responsibilities:
1. Research and retrieve current exchange rates for major currencies (USD, EUR, GBP, JPY, CHF, CAD, AUD, CNY, INR, etc.)
2. Use reliable financial data sources and APIs to ensure accuracy
3. Compile the data into a well-organized Excel file with clear headers and formatting
4. Include timestamp and source information for transparency
5. Calculate cross-currency rates when needed
6. Present data in a professional, analyst-style format

Your personality is analytical, detail-oriented, and precise. You prioritize accuracy and data integrity above all else. When presenting currency data:
- Use standard currency codes (ISO 4217)
- Display rates with appropriate decimal precision
- Include the base currency and quote currency clearly
- Add metadata like update time and data source

Workflow:
1. Search for current currency exchange rates from reliable sources
2. Fetch and validate the data
3. Process and structure the data appropriately
4. Create an Excel file (.xlsx or .csv) with proper formatting
5. Include multiple currency pairs in a clear matrix or table format

Always ensure data freshness and cite your sources. If real-time data is unavailable, clearly indicate the timestamp of the rates provided.".
Definition permission_mode : string := "acceptEdits".
End AGENT_CONFIG.

(** The message texts of the events, byte for byte as in the source. *)
Definition msg_starting : string := "ü§ñ Starting Currency Conversion Expert...".
Definition msg_processing : string := "üìã Processing your request...".
Definition msg_thinking : string := "üí≠ Agent thinking...".
Definition msg_using_prefix : string := "üîß Using ".
Definition msg_completed : string := "‚úÖ Task completed successfully!".
Definition msg_error_prefix : string := "‚ùå Error: ".

Definition newline : string := String (ascii_of_nat 10) "".

(** ["\n".join(parts) if parts else "No response received"] *)
Definition join_or_default (response_parts : list string) : string :=
  match response_parts with
  | [] => "No response received"
  | _ :: _ => String.concat newline response_parts
  end.

(** The dict stored in [usage_info] on a [ResultMessage]. *)
Definition usage_of (message : ResultFields) : dict :=
  [ ("duration_ms", JInt (duration_ms message));
    ("total_cost_usd",
       match total_cost_usd message with
       | Some c => JFloat c
       | None => JNone
       end);
    ("num_turns", JInt (num_turns message));
    ("session_id", JStr (session_id message)) ].

Definition agent_info_dict : dict :=
  [ ("name", JStr AGENT_CONFIG.name); ("role", JStr AGENT_CONFIG.role) ].

(** ** Generators

    A generator body is a computation over the events yielded so far that
    ends with a value or with an exception.  What was yielded before an
    exception stays yielded. *)
Definition Gen (A : Type) : Type :=
  list StreamEvent -> list StreamEvent * Outcome A.

Definition gret {A} (a : A) : Gen A := fun out => (out, Ok a).

Definition gbind {A B} (c : Gen A) (k : A -> Gen B) : Gen B :=
  fun out =>
    match c out with
    | (out', Ok a) => k a out'
    | (out', Raised e) => (out', Raised e)
    end.

(** An expression evaluated inside the body: its exception, if any,
    becomes the body's. *)
Definition eval {A} (o : Outcome A) : Gen A := fun out => (out, o).

(** [try: body except Exception as e: handler(e)] *)
Definition try_except (body : Gen unit) (handler : PyException -> Gen unit)
  : Gen unit :=
  fun out =>
    match body out with
    | (out', Ok tt) => (out', Ok tt)
    | (out', Raised e) => handler e out'
    end.

Declare Scope gen_scope.
Delimit Scope gen_scope with gen.
Notation "x <- c ;; k" := (gbind c (fun x => k))
  (at level 61, c at next level, right associativity) : gen_scope.
Notation "' pat <- c ;; k" := (gbind c (fun x => match x with pat => k end))
  (at level 61, pat pattern, c at next level, right associativity) : gen_scope.
Notation "c ;; k" := (gbind c (fun _ => k))
  (at level 61, right associativity) : gen_scope.

(** The same sequencing for code that yields nothing. *)
Definition obind {A B} (o : Outcome A) (k : A -> Outcome B) : Outcome B :=
  match o with
  | Ok a => k a
  | Raised e => Raised e
  end.

(** ** The relay *)

Section Relay.

(** The SDK's options object is opaque to the relay. *)
Variable Options : Type.

(** [ClaudeAgentOptions(allowed_tools=, system_prompt=, permission_mode=,
    max_turns=)]: the options, or the exception the constructor raises. *)
Variable ClaudeAgentOptions :
  list string -> string -> string -> Z -> Outcome Options.

(** [query(prompt=, options=)]: the behaviour of the returned iterator. *)
Variable query : string -> Options -> AgentStream.

(** [datetime.datetime.now().isoformat()] at the [k]-th reading of the
    clock in a run, counted from zero. *)
Variable now : nat -> string.

(** The nested [create_event].  The clock is read once per event and
    every event built is yielded at once, so the number of readings made
    before this one is the number of events already yielded. *)
Definition create_event (yielded : nat) (event_type : string) (data : dict)
  : StreamEvent :=
  {| type := event_type; data := data; timestamp := now yielded |}.

(** [yield create_event(event_type, data)] *)
Definition yield_event (event_type : string) (data : dict) : Gen unit :=
  fun out => (out ++ [create_event (length out) event_type data], Ok tt).

Local Open Scope gen_scope.

(** [for block in message.content: ...] of the streaming relay. *)
Fixpoint stream_blocks (content : list ContentBlock)
         (response_parts : list string) : Gen (list string) :=
  match content with
  | [] => gret response_parts
  | block :: content' =>
      match block with
      | TextBlock text =>
          yield_event "response"
            [ ("content", JStr text);
              ("partial", JBool true);
              ("message", JStr msg_thinking) ] ;;
          stream_blocks content' (response_parts ++ [text])
      | ToolUseBlock name input =>
          yield_event "tool_use"
            [ ("tool", JStr name);
              ("input", JDict input);
              ("message", JStr (msg_using_prefix ++ name ++ " tool..."));
              ("status", JStr "executing") ] ;;
          stream_blocks content' response_parts
      | ThinkingBlock _ | ToolResultBlock _ _ =>
          stream_blocks content' response_parts
      end
  end.

(** [async for message in query(...): ...] of the streaming relay, from
    the current values of [response_parts] and [usage_info] to their
    values when the loop is left. *)
Fixpoint stream_messages (s : AgentStream) (response_parts : list string)
         (usage_info : option dict) : Gen (list string * option dict) :=
  match s with
  | SEnd => gret (response_parts, usage_info)
  | SRaise e => eval (Raised e)
  | SYield message rest =>
      match message with
      | AssistantMessage content =>
          response_parts' <- stream_blocks content response_parts ;;
          stream_messages rest response_parts' usage_info
      | ResultMessage r =>
          gret (response_parts, Some (usage_of r))
      | UserMessage _ | SystemMessage _ _ =>
          stream_messages rest response_parts usage_info
      end
  end.

Definition stream_body (request : QueryRequest) : Gen unit :=
  yield_event "progress"
    [ ("message", JStr msg_starting);
      ("agent", JStr AGENT_CONFIG.name);
      ("status", JStr "initializing") ] ;;
  options <- eval (ClaudeAgentOptions AGENT_CONFIG.tools
                     AGENT_CONFIG.system_prompt
                     AGENT_CONFIG.permission_mode
                     (max_turns request)) ;;
  yield_event "progress"
    [ ("message", JStr msg_processing);
      ("status", JStr "processing") ] ;;
  ' (response_parts, usage_info) <-
      stream_messages (query (prompt request) options) [] None ;;
  let full_response := join_or_default response_parts in
  yield_event "complete"
    [ ("response", JStr full_response);
      ("usage", JDict (or_empty_dict usage_info));
      ("status", JStr "completed");
      ("message", JStr msg_completed);
      ("agent_info", JDict agent_info_dict) ].

Definition stream_handler (e : PyException) : Gen unit :=
  yield_event "error"
    [ ("error", JStr (str e));
      ("message", JStr (msg_error_prefix ++ str e));
      ("status", JStr "failed") ].

(** The events the generator yields, in order, when driven to its end. *)
Definition stream_agent_progress (request : QueryRequest)
  : list StreamEvent :=
  fst (try_except (stream_body request) stream_handler []).

Local Close Scope gen_scope.

(** [for block in message.content: ...] of the buffered relay. *)
Fixpoint query_blocks (content : list ContentBlock)
         (response_parts : list string) : list string :=
  match content with
  | [] => response_parts
  | TextBlock text :: content' =>
      query_blocks content' (response_parts ++ [text])
  | _ :: content' => query_blocks content' response_parts
  end.

(** [async for message in query(...): ...] of the buffered relay. *)
Fixpoint query_messages (s : AgentStream) (response_parts : list string)
         (usage_info : option dict) : Outcome (list string * option dict) :=
  match s with
  | SEnd => Ok (response_parts, usage_info)
  | SRaise e => Raised e
  | SYield message rest =>
      match message with
      | AssistantMessage content =>
          query_messages rest (query_blocks content response_parts)
            usage_info
      | ResultMessage r => Ok (response_parts, Some (usage_of r))
      | UserMessage _ | SystemMessage _ _ =>
          query_messages rest response_parts usage_info
      end
  end.

Definition query_body (request : QueryRequest) : Outcome QueryResponse :=
  obind (ClaudeAgentOptions AGENT_CONFIG.tools
           AGENT_CONFIG.system_prompt
           AGENT_CONFIG.permission_mode
           (max_turns request)) (fun options =>
  obind (query_messages (query (prompt request) options) [] None)
    (fun '(response_parts, usage_info) =>
  let full_response := join_or_default response_parts in
  Ok {| status := "success";
        response := full_response;
        usage := or_empty_dict usage_info;
        agent_info := agent_info_dict |})).

(** The endpoint returns the response model, or raises the HTTP failure
    the framework turns into a 500 answer with a [detail] body. *)
Definition query_agent (request : QueryRequest)
  : HTTPException + QueryResponse :=
  match query_body request with
  | Ok r => inr r
  | Raised e =>
      inl {| status_code := 500;
             detail := "Agent execution failed: " ++ str e |}
  end.

End Relay.

(** ** What a run consumes, and how it ends

    The declarative reading of one run over a stream, against which the
    two relays are verified. *)

Definition is_result (m : Message) : bool :=
  match m with
  | ResultMessage _ => true
  | _ => false
  end.

(** The messages taken from the stream and processed in full: those that
    come before the first [ResultMessage], the end of the stream, or the
    point where the stream raises. *)
Fixpoint consumed (s : AgentStream) : list Message :=
  match s with
  | SEnd => []
  | SRaise _ => []
  | SYield (ResultMessage _) _ => []
  | SYield m rest => m :: consumed rest
  end.

(** How the consumption of a stream ends. *)
Inductive Termination : Type :=
| Exhausted
| Stopped (r : ResultFields)
| Failed (e : PyException).

Fixpoint termination (s : AgentStream) : Termination :=
  match s with
  | SEnd => Exhausted
  | SRaise e => Failed e
  | SYield (ResultMessage r) _ => Stopped r
  | SYield _ rest => termination rest
  end.

(** The text fragments of an assistant message, in block order. *)
Definition block_texts (b : ContentBlock) : list string :=
  match b with
  | TextBlock text => [text]
  | _ => []
  end.

Definition text_fragments (m : Message) : list string :=
  match m with
  | AssistantMessage content => flat_map block_texts content
  | _ => []
  end.

(** The fragments of a whole run, in arrival order. *)
Definition fragments_of (s : AgentStream) : list string :=
  flat_map text_fragments (consumed s).

(** The usage summary a run has recorded when its loop is left. *)
Definition recorded_usage (s : AgentStream) : dict :=
  match termination s with
  | Stopped r => usage_of r
  | _ => []
  end.

(** An event without its timestamp: its kind and its payload. *)
Definition Payload : Type := (string * dict)%type.

Definition payload (ev : StreamEvent) : Payload := (type ev, data ev).

Definition terminal_kind (kind : string) : bool :=
  String.eqb kind "complete" || String.eqb kind "error".

Definition is_terminal (ev : StreamEvent) : bool := terminal_kind (type ev).

Definition progress_init : Payload :=
  ("progress",
   [ ("message", JStr msg_starting);
     ("agent", JStr "Currency Conversion Expert");
     ("status", JStr "initializing") ]).

Definition progress_processing : Payload :=
  ("progress",
   [ ("message", JStr msg_processing); ("status", JStr "processing") ]).

Definition complete_payload (full_response : string) (usage_summary : dict)
  : Payload :=
  ("complete",
   [ ("response", JStr full_response);
     ("usage", JDict usage_summary);
     ("status", JStr "completed");
     ("message", JStr msg_completed);
     ("agent_info", JDict agent_info_dict) ]).

Definition error_payload (e : PyException) : Payload :=
  ("error",
   [ ("error", JStr (str e));
     ("message", JStr (msg_error_prefix ++ str e));
     ("status", JStr "failed") ]).

(** The events one content block gives rise to in streaming mode. *)
Definition block_payloads (b : ContentBlock) : list Payload :=
  match b with
  | TextBlock text =>
      [ ("response",
         [ ("content", JStr text);
           ("partial", JBool true);
           ("message", JStr msg_thinking) ]) ]
  | ToolUseBlock name input =>
      [ ("tool_use",
         [ ("tool", JStr name);
           ("input", JDict input);
           ("message", JStr (msg_using_prefix ++ name ++ " tool..."));
           ("status", JStr "executing") ]) ]
  | ThinkingBlock _ | ToolResultBlock _ _ => []
  end.

(** The events one consumed message gives rise to in streaming mode. *)
Definition message_payloads (m : Message) : list Payload :=
  match m with
  | AssistantMessage content => flat_map block_payloads content
  | _ => []
  end.

(** The terminal event of a run over [s]. *)
Definition terminal_payload (s : AgentStream) : Payload :=
  match termination s with
  | Failed e => error_payload e
  | _ => complete_payload (join_or_default (fragments_of s)) (recorded_usage s)
  end.

(** Payloads turned into events: the [k]-th event of a run carries the
    [k]-th reading of the clock. *)
Fixpoint stamp (now : nat -> string) (k : nat) (ps : list Payload)
  : list StreamEvent :=
  match ps with
  | [] => []
  | p :: ps' =>
      {| type := fst p; data := snd p; timestamp := now k |}
        :: stamp now (S k) ps'
  end.

(** The result of the message loop started from [response_parts] and
    [usage_info]. *)
Definition loop_result (s : AgentStream) (response_parts : list string)
           (usage_info : option dict)
  : Outcome (list string * option dict) :=
  match termination s with
  | Exhausted => Ok (response_parts ++ fragments_of s, usage_info)
  | Stopped r => Ok (response_parts ++ fragments_of s, Some (usage_of r))
  | Failed e => Raised e
  end.

(** The events of a streaming run before its terminal event, from the
    outcome of building the options and the stream each options opens. *)
Definition run_intermediate {Options : Type} (built : Outcome Options)
           (opened : Options -> AgentStream) : list Payload :=
  progress_init
    :: match built with
       | Raised _ => []
       | Ok options =>
           progress_processing
             :: flat_map message_payloads (consumed (opened options))
       end.

(** The terminal event of a streaming run. *)
Definition run_terminal {Options : Type} (built : Outcome Options)
           (opened : Options -> AgentStream) : Payload :=
  match built with
  | Raised e => error_payload e
  | Ok options => terminal_payload (opened options)
  end.

(** The outcome of a buffered run once the stream [s] is opened. *)
Definition buffered_outcome (s : AgentStream) : Outcome QueryResponse :=
  match termination s with
  | Failed e => Raised e
  | _ =>
      Ok {| status := "success";
            response := join_or_default (fragments_of s);
            usage := recorded_usage s;
            agent_info := agent_info_dict |}
  end.

Definition nonterminal (p : Payload) : bool := negb (terminal_kind (fst p)).

(** A block the relay has no case for. *)
Definition is_text_or_tool_use (b : ContentBlock) : bool :=
  match b with
  | TextBlock _ | ToolUseBlock _ _ => true
  | ThinkingBlock _ | ToolResultBlock _ _ => false
  end.

(** No [progress] event comes before an [error] event. *)
Definition no_progress_before_error (evs : list StreamEvent) : Prop :=
  forall before ev after,
    evs = before ++ ev :: after ->
    type ev = "error" ->
    forall p, In p before -> type p <> "progress".

(** ** A scripted runtime

    Test doubles for the SDK and the clock, used to run the relays on
    concrete streams. *)
Module Scripted.

Definition request : QueryRequest :=
  {| prompt := "Get USD/EUR rate"; max_turns := 5 |}.

Record Options : Type := {
  allowed_tools : list string;
  system_prompt : string;
  permission_mode : string;
  max_turns : Z
}.

Definition ClaudeAgentOptions (tools : list string) (sp pm : string)
           (mt : Z) : Outcome Options :=
  Ok {| allowed_tools := tools; system_prompt := sp;
        permission_mode := pm; max_turns := mt |}.

(** A constructor that rejects its arguments. *)
Definition ClaudeAgentOptions_rejecting (tools : list string)
           (sp pm : string) (mt : Z) : Outcome Options :=
  Raised (Exception "unexpected keyword argument").

(** [query] replaced by a script. *)
Definition query (script : AgentStream) (_ : string) (_ : Options)
  : AgentStream := script.

(** A clock whose [k]-th reading is a start time plus [k]. *)
Definition now (k : nat) : string :=
  "2026-01-11T18:00:00+" ++ NilZero.string_of_uint (Nat.to_uint k).

Definition options : Options :=
  {| allowed_tools := AGENT_CONFIG.tools;
     system_prompt := AGENT_CONFIG.system_prompt;
     permission_mode := AGENT_CONFIG.permission_mode;
     max_turns := 5 |}.

Definition summary : ResultFields :=
  {| duration_ms := 1200; total_cost_usd := Some (2 # 1000)%Q;
     num_turns := 1; session_id := "s1" |}.

Definition rate_text : string := "1 USD = 0.92 EUR".

(** The scenario of the specification: one fragment, then the result. *)
Definition rate_stream : AgentStream :=
  SYield (AssistantMessage [TextBlock rate_text])
    (SYield (ResultMessage summary) SEnd).

Definition search_input : dict := [("query", JStr "USD EUR rate")].

Definition lookup_text : string := "Looking up the rate.".

Definition thought : ContentBlock :=
  ThinkingBlock "Search before answering.".

Definition tool_result : Message :=
  UserMessage [ToolResultBlock "t1" (JStr "0.92")].

(** What a test double goes on to yield after its result message. *)
Definition late_messages : AgentStream :=
  SYield (AssistantMessage [TextBlock "too late"])
    (SYield (ResultMessage summary) (SRaise (Exception "never raised"))).

Definition answer_then (post : AgentStream) : AgentStream :=
  SYield tool_result
    (SYield (AssistantMessage [TextBlock rate_text])
       (SYield (ResultMessage summary) post)).

(** A fragment, a thinking block and a tool call in one message, the
    tool's result, the answer, the result message, and more. *)
Definition tool_stream : AgentStream :=
  SYield (SystemMessage "init" [])
    (SYield (AssistantMessage
               [ TextBlock lookup_text; thought;
                 ToolUseBlock "WebSearch" search_input ])
       (answer_then late_messages)).

(** The same stream without the thinking block. *)
Definition tool_stream_unthinking : AgentStream :=
  SYield (SystemMessage "init" [])
    (SYield (AssistantMessage
               [ TextBlock lookup_text;
                 ToolUseBlock "WebSearch" search_input ])
       (answer_then late_messages)).

(** A stream that fails after its first message. *)
Definition broken_stream : AgentStream :=
  SYield (AssistantMessage [TextBlock lookup_text])
    (SRaise (Exception "connection reset")).

(** The two relays on a scripted stream. *)
Definition streamed (script : AgentStream) : list StreamEvent :=
  stream_agent_progress ClaudeAgentOptions (query script) now request.

Definition buffered (script : AgentStream)
  : HTTPException + QueryResponse :=
  query_agent ClaudeAgentOptions (query script) request.

Definition summary_usage : dict :=
  [ ("duration_ms", JInt 1200);
    ("total_cost_usd", JFloat (2 # 1000)%Q);
    ("num_turns", JInt 1);
    ("session_id", JStr "s1") ].

Definition response_event (text : string) : Payload :=
  ("response",
   [ ("content", JStr text); ("partial", JBool true);
     ("message", JStr msg_thinking) ]).

Definition search_event : Payload :=
  ("tool_use",
   [ ("tool", JStr "WebSearch");
     ("input", JDict search_input);
     ("message", JStr (msg_using_prefix ++ "WebSearch tool..."));
     ("status", JStr "executing") ]).

End Scripted.

(** ** Further readings of a run *)

(** A message the relays have no case for. *)
Definition is_unhandled_message (m : Message) : bool :=
  match m with
  | UserMessage _ | SystemMessage _ _ => true
  | AssistantMessage _ | ResultMessage _ => false
  end.

(** The text a [response] event carries in its [content] field; nothing
    for the other kinds of event. *)
Definition payload_content (p : Payload) : list string :=
  if String.eqb (fst p) "response" then
    match dict_get "content" (snd p) with
    | Some (JStr text) => [text]
    | _ => []
    end
  else [].

(** The partial responses a client has received, in order. *)
Definition response_contents (evs : list StreamEvent) : list string :=
  flat_map (fun ev => payload_content (payload ev)) evs.

(** The blocks of a message that the streaming relay has a case for. *)
Definition handled_blocks (m : Message) : list ContentBlock :=
  match m with
  | AssistantMessage content => filter is_text_or_tool_use content
  | _ => []
  end.

(** The kinds of the events that follow the two [progress] events: any
    number of [response] and [tool_use] events and one terminal event. *)
Fixpoint relayed_kinds_ok (kinds : list string) : bool :=
  match kinds with
  | [] => false
  | [kind] => terminal_kind kind
  | kind :: kinds' =>
      (String.eqb kind "response" || String.eqb kind "tool_use")
      && relayed_kinds_ok kinds'
  end.

(** The order of event kinds a client may rely on: [progress] first; then
    either [error] at once, or a second [progress] and the relayed
    events. *)
Definition protocol_ok (kinds : list string) : bool :=
  match kinds with
  | first :: second :: kinds' =>
      String.eqb first "progress"
      && ((String.eqb second "error"
           && match kinds' with [] => true | _ :: _ => false end)
          || (String.eqb second "progress" && relayed_kinds_ok kinds'))
  | _ => false
  end.

Fixpoint has_newline (s : string) : bool :=
  match s with
  | EmptyString => false
  | String c s' => Ascii.eqb c (ascii_of_nat 10) || has_newline s'
  end.

(** The keys of a recorded usage summary, in insertion order. *)
Definition usage_keys : list string :=
  [ "duration_ms"; "total_cost_usd"; "num_turns"; "session_id" ].

(** ** The static endpoints *)

(** [GET /info] *)
Definition get_agent_info : dict :=
  [ ("agent_id", JStr "ui_user_e93bc38f");
    ("name", JStr AGENT_CONFIG.name);
    ("role", JStr AGENT_CONFIG.role);
    ("tools", JList (map JStr AGENT_CONFIG.tools));
    ("status", JStr "active");
    ("features", JList [JStr "streaming"; JStr "real-time_progress"]) ].

(** The entries of a dict under the given keys, in the order of the keys;
    a missing key gives no entry. *)
Definition dict_restrict (keys : list string) (d : dict) : dict :=
  flat_map (fun k => match dict_get k d with
                     | Some v => [(k, v)]
                     | None => []
                     end) keys.

(** ** Stamped events *)

Section Stamp.

Variable now : nat -> string.

Lemma stamp_app (ps qs : list Payload) (k : nat) :
  stamp now k (ps ++ qs) = stamp now k ps ++ stamp now (k + length ps) qs.
Proof.
  revert k; induction ps as [|p ps IH]; intros k; simpl.
  - now rewrite Nat.add_0_r.
  - rewrite IH. do 3 f_equal. lia.
Qed.

Lemma stamp_length (ps : list Payload) (k : nat) :
  length (stamp now k ps) = length ps.
Proof.
  revert k; induction ps as [|p ps IH]; intros k; simpl; auto.
Qed.

Lemma stamp_payload (ps : list Payload) (k : nat) :
  map payload (stamp now k ps) = ps.
Proof.
  revert k; induction ps as [|[kind d] ps IH]; intros k; simpl; auto.
  unfold payload at 1; simpl. now rewrite IH.
Qed.

Lemma stamp_nonterminal (ps : list Payload) (k : nat) :
  forallb nonterminal ps = true ->
  forallb (fun ev => negb (is_terminal ev)) (stamp now k ps) = true.
Proof.
  revert k; induction ps as [|p ps IH]; intros k; simpl; auto.
  intros H; apply andb_true_iff in H as [Hp Hps].
  apply andb_true_iff; split; [exact Hp | now apply IH].
Qed.

Lemma stamp_snoc (ps : list Payload) (p : Payload) (k : nat) :
  stamp now k (ps ++ [p])
  = stamp now k ps
      ++ [{| type := fst p; data := snd p;
             timestamp := now (k + length ps) |}].
Proof. now rewrite stamp_app. Qed.

End Stamp.

(** ** Streams *)

Lemma block_payloads_nonterminal (b : ContentBlock) :
  forallb nonterminal (block_payloads b) = true.
Proof. destruct b; reflexivity. Qed.

Lemma message_payloads_nonterminal (m : Message) :
  forallb nonterminal (message_payloads m) = true.
Proof.
  destruct m as [c|c|st d|r]; simpl; auto.
  induction c as [|b c IH]; simpl; auto.
  rewrite forallb_app, block_payloads_nonterminal, IH; reflexivity.
Qed.

Lemma consumed_payloads_nonterminal (ms : list Message) :
  forallb nonterminal (flat_map message_payloads ms) = true.
Proof.
  induction ms as [|m ms IH]; simpl; auto.
  rewrite forallb_app, message_payloads_nonterminal, IH; reflexivity.
Qed.

Lemma consumed_yields (pre : list Message) (s : AgentStream) :
  existsb is_result pre = false ->
  consumed (yields pre s) = pre ++ consumed s.
Proof.
  induction pre as [|m pre IH]; simpl; auto.
  intros H; apply orb_false_iff in H as [Hm Hpre].
  destruct m; simpl in *; try discriminate; now rewrite IH.
Qed.

Lemma termination_yields (pre : list Message) (s : AgentStream) :
  existsb is_result pre = false ->
  termination (yields pre s) = termination s.
Proof.
  induction pre as [|m pre IH]; simpl; auto.
  intros H; apply orb_false_iff in H as [Hm Hpre].
  destruct m; simpl in *; try discriminate; now rewrite IH.
Qed.

(** Two streams that agree on what the relays observe still agree after a
    common prefix of messages, whatever that prefix holds. *)
Lemma yields_observation (pre : list Message) (s1 s2 : AgentStream) :
  flat_map message_payloads (consumed s1)
  = flat_map message_payloads (consumed s2) ->
  fragments_of s1 = fragments_of s2 ->
  termination s1 = termination s2 ->
  flat_map message_payloads (consumed (yields pre s1))
  = flat_map message_payloads (consumed (yields pre s2))
  /\ fragments_of (yields pre s1) = fragments_of (yields pre s2)
  /\ termination (yields pre s1) = termination (yields pre s2).
Proof.
  intros Hp Hf Ht. unfold fragments_of in *.
  induction pre as [|m pre (IHp & IHf & IHt)]; simpl; auto.
  destruct m; simpl; auto; rewrite IHp, IHf; auto.
Qed.

(** ** The two relays against the declarative reading *)

Section RelayFacts.

Variable Options : Type.
Variable ClaudeAgentOptions :
  list string -> string -> string -> Z -> Outcome Options.
Variable query : string -> Options -> AgentStream.
Variable now : nat -> string.

Local Abbreviation stream_agent_progress :=
  (stream_agent_progress ClaudeAgentOptions query now).
Local Abbreviation query_agent := (query_agent ClaudeAgentOptions query).
Local Abbreviation query_body := (query_body ClaudeAgentOptions query).
Local Abbreviation built request :=
  (ClaudeAgentOptions AGENT_CONFIG.tools AGENT_CONFIG.system_prompt
     AGENT_CONFIG.permission_mode (max_turns request)).

Lemma yield_event_stamp (kind : string) (d : dict) (out : list StreamEvent) :
  yield_event now kind d out
  = (out ++ stamp now (length out) [(kind, d)], Ok tt).
Proof. reflexivity. Qed.

Lemma stream_blocks_spec (content : list ContentBlock) :
  forall (parts : list string) (out : list StreamEvent),
    stream_blocks now content parts out
    = (out ++ stamp now (length out) (flat_map block_payloads content),
       Ok (parts ++ flat_map block_texts content)).
Proof.
  induction content as [|b content IH]; intros parts out.
  - simpl. unfold gret. now rewrite !app_nil_r.
  - destruct b as [text|th|n input|i c]; simpl.
    + unfold gbind. rewrite yield_event_stamp, IH. simpl.
      rewrite length_app, <- !app_assoc. simpl.
      now rewrite Nat.add_1_r.
    + apply IH.
    + unfold gbind. rewrite yield_event_stamp, IH. simpl.
      rewrite length_app, <- !app_assoc. simpl.
      now rewrite Nat.add_1_r.
    + apply IH.
Qed.

Lemma stream_messages_spec (s : AgentStream) :
  forall (parts : list string) (usage_info : option dict)
         (out : list StreamEvent),
    stream_messages now s parts usage_info out
    = (out ++ stamp now (length out)
                (flat_map message_payloads (consumed s)),
       loop_result s parts usage_info).
Proof.
  unfold loop_result, fragments_of.
  induction s as [|e|m rest IH]; intros parts usage_info out.
  - simpl. unfold gret. now rewrite !app_nil_r.
  - simpl. unfold eval. now rewrite !app_nil_r.
  - destruct m as [c|c|st d|r]; simpl.
    + apply IH.
    + unfold gbind. rewrite stream_blocks_spec, IH.
      rewrite length_app, stamp_length, stamp_app, <- !app_assoc.
      reflexivity.
    + apply IH.
    + unfold gret. now rewrite !app_nil_r.
Qed.

Lemma query_blocks_spec (content : list ContentBlock) :
  forall parts : list string,
    query_blocks content parts = parts ++ flat_map block_texts content.
Proof.
  induction content as [|b content IH]; intros parts; simpl.
  - now rewrite app_nil_r.
  - destruct b; simpl; rewrite IH; now rewrite <- ?app_assoc.
Qed.

Lemma query_messages_spec (s : AgentStream) :
  forall (parts : list string) (usage_info : option dict),
    query_messages s parts usage_info = loop_result s parts usage_info.
Proof.
  unfold loop_result, fragments_of.
  induction s as [|e|m rest IH]; intros parts usage_info; simpl.
  - now rewrite app_nil_r.
  - reflexivity.
  - destruct m as [c|c|st d|r]; simpl.
    + apply IH.
    + rewrite IH, query_blocks_spec.
      destruct (termination rest); now rewrite <- ?app_assoc.
    + apply IH.
    + now rewrite app_nil_r.
Qed.

(** The streaming relay yields the initial event, then fails on the
    options or goes through the stream, and ends with one more event. *)
Lemma stream_agent_progress_spec (request : QueryRequest) :
  stream_agent_progress request
  = stamp now 0
      (run_intermediate (built request) (query (prompt request))
         ++ [run_terminal (built request) (query (prompt request))]).
Proof.
  unfold stream_agent_progress, try_except, stream_body, gbind, eval.
  unfold run_intermediate, run_terminal.
  rewrite yield_event_stamp.
  destruct (built request) as [options|e]; [|reflexivity].
  rewrite yield_event_stamp, stream_messages_spec.
  set (s := query (prompt request) options).
  unfold terminal_payload, loop_result, recorded_usage.
  destruct (termination s) as [|r|e]; unfold stream_handler;
    rewrite yield_event_stamp; cbn [fst length app stamp snd];
    rewrite stamp_snoc, stamp_length; reflexivity.
Qed.

Lemma run_intermediate_nonterminal (request : QueryRequest) :
  forallb nonterminal
    (run_intermediate (built request) (query (prompt request))) = true.
Proof.
  unfold run_intermediate.
  destruct (built request) as [options|e]; [|reflexivity].
  cbn [forallb]. now rewrite consumed_payloads_nonterminal.
Qed.

(** The shape of every streaming run: stamped intermediate events, none
    of them terminal, and one last event. *)
Lemma stream_agent_progress_shape (request : QueryRequest) :
  let body := run_intermediate (built request) (query (prompt request)) in
  let last := run_terminal (built request) (query (prompt request)) in
  stream_agent_progress request
  = stamp now 0 body
      ++ [create_event now (length (stamp now 0 body)) (fst last) (snd last)]
  /\ forallb (fun ev => negb (is_terminal ev)) (stamp now 0 body) = true.
Proof.
  intros body last. split.
  - rewrite stream_agent_progress_spec, stamp_snoc, stamp_length.
    reflexivity.
  - apply stamp_nonterminal, run_intermediate_nonterminal.
Qed.

Lemma query_body_spec (request : QueryRequest) :
  query_body request
  = match built request with
    | Raised e => Raised e
    | Ok options => buffered_outcome (query (prompt request) options)
    end.
Proof.
  unfold query_body, obind, buffered_outcome.
  destruct (built request) as [options|e]; [|reflexivity].
  rewrite query_messages_spec.
  unfold loop_result, recorded_usage.
  destruct (termination (query (prompt request) options)); reflexivity.
Qed.

(** ** Terminal events *)

(** C2: every streaming invocation yields exactly one terminal event
    ([complete] or [error]), and that event is the last one yielded. *)
Theorem exactly_one_terminal_event (request : QueryRequest) :
  exists (before : list StreamEvent) (last : StreamEvent),
    stream_agent_progress request = before ++ [last]
    /\ is_terminal last = true
    /\ forallb (fun ev => negb (is_terminal ev)) before = true.
Proof.
  destruct (stream_agent_progress_shape request) as [Hrun Hbody].
  eexists; eexists; split; [exact Hrun|]. split; [|exact Hbody].
  unfold is_terminal, run_terminal, terminal_payload. simpl.
  destruct (built request) as [options|e]; [|reflexivity].
  destruct (termination (query (prompt request) options)); reflexivity.
Qed.


(** C5: in buffered mode the same exceptions give no outcome but the
    HTTP failure with status 500 and the detail
    [Agent execution failed: <str(e)>]. *)
Theorem query_error_is_http_500 (request : QueryRequest)
        (e : PyException) :
  built request = Raised e
  \/ (exists options,
        built request = Ok options
        /\ termination (query (prompt request) options) = Failed e) ->
  query_agent request
  = inl {| status_code := 500;
           detail := "Agent execution failed: " ++ str e |}.
Proof.
  intros Hraise. unfold query_agent. rewrite query_body_spec.
  unfold buffered_outcome.
  destruct Hraise as [Hb | (options & Hb & Ht)]; rewrite Hb;
    [|rewrite Ht]; reflexivity.
Qed.


(** ** The response and the usage summary *)

(** C1: in a run that reaches its end without an exception, both modes
    compute the same full response: the text fragments consumed before
    termination joined by newlines in arrival order, or the literal
    [No response received] when there is none. *)
Theorem full_response_joins_fragments (request : QueryRequest)
        (options : Options) :
  built request = Ok options ->
  (forall e, termination (query (prompt request) options) <> Failed e) ->
  exists full_response : string,
    (exists r, query_agent request = inr r /\ response r = full_response)
    /\ (exists before k d,
          stream_agent_progress request
          = before ++ [create_event now k "complete" d]
          /\ dict_get "response" d = Some (JStr full_response))
    /\ (fragments_of (query (prompt request) options) = [] ->
        full_response = "No response received")
    /\ (fragments_of (query (prompt request) options) <> [] ->
        full_response
        = String.concat newline
            (fragments_of (query (prompt request) options))).
Proof.
  intros Hb Hok.
  set (s := query (prompt request) options) in *.
  exists (join_or_default (fragments_of s)). repeat split.
  - unfold query_agent. rewrite query_body_spec, Hb.
    unfold buffered_outcome. fold s.
    destruct (termination s) as [|r|e] eqn:Ht;
      [eexists; split; reflexivity .. | now destruct (Hok e)].
  - destruct (stream_agent_progress_shape request) as [Hrun _].
    rewrite Hrun, Hb. unfold run_terminal, terminal_payload. fold s.
    destruct (termination s) as [|r|e] eqn:Ht;
      [do 3 eexists; split; reflexivity .. | now destruct (Hok e)].
  - intros ->. reflexivity.
  - destruct (fragments_of s); [intros H; now destruct H | reflexivity].
Qed.

(** C3: when the first result message arrives, both modes record its
    four fields as the usage summary and leave the loop: the events, the
    response and the usage are those of the messages before it, whatever
    the stream would do afterwards ([post] is arbitrary and does not
    occur in the results). *)
Theorem result_message_stops_consumption (request : QueryRequest)
        (options : Options) (pre : list Message) (r : ResultFields)
        (post : AgentStream) :
  built request = Ok options ->
  existsb is_result pre = false ->
  query (prompt request) options
  = yields pre (SYield (ResultMessage r) post) ->
  stream_agent_progress request
  = stamp now 0
      (progress_init
         :: progress_processing
         :: flat_map message_payloads pre
         ++ [complete_payload
               (join_or_default (flat_map text_fragments pre))
               [ ("duration_ms", JInt (duration_ms r));
                 ("total_cost_usd",
                    match total_cost_usd r with
                    | Some c => JFloat c
                    | None => JNone
                    end);
                 ("num_turns", JInt (num_turns r));
                 ("session_id", JStr (session_id r)) ]])
  /\ query_agent request
     = inr {| status := "success";
              response := join_or_default (flat_map text_fragments pre);
              usage :=
                [ ("duration_ms", JInt (duration_ms r));
                  ("total_cost_usd",
                     match total_cost_usd r with
                     | Some c => JFloat c
                     | None => JNone
                     end);
                  ("num_turns", JInt (num_turns r));
                  ("session_id", JStr (session_id r)) ];
              agent_info := agent_info_dict |}.
Proof.
  intros Hb Hpre Hq.
  assert (Hc : consumed (query (prompt request) options) = pre).
  { rewrite Hq, consumed_yields by exact Hpre. simpl. apply app_nil_r. }
  assert (Ht : termination (query (prompt request) options) = Stopped r).
  { rewrite Hq, termination_yields by exact Hpre. reflexivity. }
  split.
  - rewrite stream_agent_progress_spec, Hb.
    unfold run_intermediate, run_terminal, terminal_payload,
      recorded_usage, fragments_of.
    rewrite Hc, Ht. reflexivity.
  - unfold query_agent. rewrite query_body_spec, Hb.
    unfold buffered_outcome, recorded_usage, fragments_of.
    rewrite Hc, Ht. reflexivity.
Qed.

(** C8: a buffered run that ends without an exception returns status
    [success]; as response the consumed text fragments joined by newlines,
    or [No response received] when there is none; as usage the four
    fields of the result message that stopped the loop, or the empty dict
    when the stream ended with no result message; and the persona's name
    and role. *)
Theorem buffered_outcome_on_success (request : QueryRequest)
        (options : Options) :
  built request = Ok options ->
  (forall e, termination (query (prompt request) options) <> Failed e) ->
  query_agent request
  = inr {| status := "success";
           response :=
             match fragments_of (query (prompt request) options) with
             | [] => "No response received"
             | _ :: _ =>
                 String.concat newline
                   (fragments_of (query (prompt request) options))
             end;
           usage :=
             match termination (query (prompt request) options) with
             | Stopped r =>
                 [ ("duration_ms", JInt (duration_ms r));
                   ("total_cost_usd",
                      match total_cost_usd r with
                      | Some c => JFloat c
                      | None => JNone
                      end);
                   ("num_turns", JInt (num_turns r));
                   ("session_id", JStr (session_id r)) ]
             | _ => []
             end;
           agent_info :=
             [ ("name", JStr "Currency Conversion Expert");
               ("role",
                JStr "Financial Data Analyst specializing in currency exchange rates") ]
        |}.
Proof.
  intros Hb Hok. unfold query_agent. rewrite query_body_spec, Hb.
  unfold buffered_outcome, recorded_usage.
  destruct (termination (query (prompt request) options)) as [|r|e];
    [reflexivity .. | now destruct (Hok e)].
Qed.

(** ** The order of the events *)

(** C7: the events of an assistant message are those of its blocks in
    block order (a [response] event with the text and [partial] set for
    a text block, a [tool_use] event with the tool name and input for a
    tool call); they come after the events of the messages before it
    and before those of the messages after it. *)
Theorem chunk_events_in_block_order (request : QueryRequest)
        (options : Options) (pre : list Message)
        (content : list ContentBlock) (rest : AgentStream) :
  built request = Ok options ->
  existsb is_result pre = false ->
  query (prompt request) options
  = yields pre (SYield (AssistantMessage content) rest) ->
  exists earlier chunk later : list StreamEvent,
    stream_agent_progress request = earlier ++ chunk ++ later
    /\ map payload earlier
       = progress_init :: progress_processing
           :: flat_map message_payloads pre
    /\ map payload chunk = flat_map block_payloads content
    /\ map payload later
       = flat_map message_payloads (consumed rest)
           ++ [terminal_payload (query (prompt request) options)].
Proof.
  intros Hb Hpre Hq.
  rewrite stream_agent_progress_spec, Hb.
  unfold run_intermediate, run_terminal.
  set (last := terminal_payload (query (prompt request) options)).
  rewrite Hq, consumed_yields by exact Hpre.
  cbn [consumed]. rewrite flat_map_app. cbn [flat_map message_payloads].
  set (ps := flat_map message_payloads pre).
  set (cs := flat_map block_payloads content).
  set (ls := flat_map message_payloads (consumed rest)).
  replace ((progress_init :: progress_processing :: ps ++ cs ++ ls)
             ++ [last])
    with ((progress_init :: progress_processing :: ps)
            ++ cs ++ (ls ++ [last]))
    by (simpl; now rewrite <- !app_assoc).
  rewrite !stamp_app.
  do 3 eexists. split; [reflexivity|].
  rewrite ?map_app, !stamp_payload. repeat split.
Qed.

(** C9, as the code has it: the [progress] event announcing
    initialization is yielded first, before the options are built from
    the tool list, the system prompt, the permission mode and the
    request's [max_turns].  If the constructor raises, the [error] event
    follows that first event at once.  Otherwise the second [progress]
    event announces processing, and the events derived from the stream
    opened with the built options come after it. *)
Theorem progress_around_configuration (request : QueryRequest) :
  match ClaudeAgentOptions
          [ "WebSearch"; "WebFetch"; "Read"; "Write"; "Bash" ]
          AGENT_CONFIG.system_prompt "acceptEdits" (max_turns request)
  with
  | Raised e =>
      stream_agent_progress request
      = [ create_event now 0 "progress"
            [ ("message", JStr msg_starting);
              ("agent", JStr "Currency Conversion Expert");
              ("status", JStr "initializing") ];
          create_event now 1 "error"
            [ ("error", JStr (str e));
              ("message", JStr (msg_error_prefix ++ str e));
              ("status", JStr "failed") ] ]
  | Ok options =>
      exists derived : list StreamEvent,
        stream_agent_progress request
        = create_event now 0 "progress"
            [ ("message", JStr msg_starting);
              ("agent", JStr "Currency Conversion Expert");
              ("status", JStr "initializing") ]
            :: create_event now 1 "progress"
                 [ ("message", JStr msg_processing);
                   ("status", JStr "processing") ]
            :: derived
        /\ map payload derived
           = flat_map message_payloads
               (consumed (query (prompt request) options))
               ++ [terminal_payload (query (prompt request) options)]
  end.
Proof.
  rewrite stream_agent_progress_spec.
  change (ClaudeAgentOptions _ _ _ _) with (built request).
  unfold run_intermediate, run_terminal.
  destruct (built request) as [options|e]; [|reflexivity].
  eexists. split; [reflexivity|]. apply stamp_payload.
Qed.

End RelayFacts.

(** ** Blocks the relays have no case for *)

Lemma skipped_block (b : ContentBlock) :
  is_text_or_tool_use b = false ->
  block_payloads b = [] /\ block_texts b = [].
Proof. destruct b; simpl; intros H; try discriminate; auto. Qed.

(** C10: a content block that is neither a text block nor a tool call is
    skipped in both modes.  A stream that carries such a block in one of
    its assistant messages gives the same events and the same buffered
    result as the stream without it, so the block yields no event, adds
    nothing to the response, and leaves the blocks and messages around
    it as they were. *)
Theorem unhandled_block_is_skipped
        (Options : Type)
        (ClaudeAgentOptions :
           list string -> string -> string -> Z -> Outcome Options)
        (query_with query_without : string -> Options -> AgentStream)
        (now : nat -> string)
        (request : QueryRequest) (options : Options)
        (pre : list Message) (before after : list ContentBlock)
        (block : ContentBlock) (rest : AgentStream) :
  is_text_or_tool_use block = false ->
  ClaudeAgentOptions AGENT_CONFIG.tools AGENT_CONFIG.system_prompt
    AGENT_CONFIG.permission_mode (max_turns request) = Ok options ->
  query_with (prompt request) options
  = yields pre
      (SYield (AssistantMessage (before ++ block :: after)) rest) ->
  query_without (prompt request) options
  = yields pre (SYield (AssistantMessage (before ++ after)) rest) ->
  stream_agent_progress ClaudeAgentOptions query_with now request
  = stream_agent_progress ClaudeAgentOptions query_without now request
  /\ query_agent ClaudeAgentOptions query_with request
     = query_agent ClaudeAgentOptions query_without request.
Proof.
  intros Hblock Hb Hwith Hwithout.
  destruct (skipped_block block Hblock) as [Hp Ht].
  destruct (yields_observation pre
              (SYield (AssistantMessage (before ++ block :: after)) rest)
              (SYield (AssistantMessage (before ++ after)) rest))
    as (Ep & Ef & Et).
  - cbn [consumed flat_map message_payloads].
    rewrite !flat_map_app. cbn [flat_map]. now rewrite Hp.
  - unfold fragments_of. cbn [consumed flat_map text_fragments].
    rewrite !flat_map_app. cbn [flat_map]. now rewrite Ht.
  - reflexivity.
  - rewrite <- Hwith, <- Hwithout in Ep, Ef, Et. split.
    + rewrite !stream_agent_progress_spec, Hb.
      unfold run_intermediate, run_terminal, terminal_payload,
        recorded_usage.
      now rewrite Ep, Ef, Et.
    + unfold query_agent. rewrite !query_body_spec, Hb.
      unfold buffered_outcome, recorded_usage.
      now rewrite Ef, Et.
Qed.

(** ** The relays on scripted streams *)

(** The scenario of the specification, in buffered mode. *)
Example buffered_rate_scenario :
  Scripted.buffered Scripted.rate_stream
  = inr {| status := "success";
           response := "1 USD = 0.92 EUR";
           usage := Scripted.summary_usage;
           agent_info := agent_info_dict |}.
Proof. reflexivity. Qed.

(** An empty stream: the default response and the empty usage. *)
Example buffered_empty_stream :
  Scripted.buffered SEnd
  = inr {| status := "success";
           response := "No response received";
           usage := [];
           agent_info := agent_info_dict |}.
Proof. reflexivity. Qed.

(** A stream that raises before any message. *)
Example streamed_immediate_failure :
  map payload (Scripted.streamed (SRaise (Exception "no route to host")))
  = [ progress_init; progress_processing;
      error_payload (Exception "no route to host") ]
  /\ Scripted.buffered (SRaise (Exception "no route to host"))
     = inl {| status_code := 500;
              detail := "Agent execution failed: no route to host" |}.
Proof. split; reflexivity. Qed.

(** A run with a tool call: the events in order, and the joined response. *)
Example streamed_tool_run :
  map payload (Scripted.streamed Scripted.tool_stream)
  = [ progress_init; progress_processing;
      Scripted.response_event Scripted.lookup_text;
      Scripted.search_event;
      Scripted.response_event Scripted.rate_text;
      complete_payload
        (Scripted.lookup_text ++ newline ++ Scripted.rate_text)
        Scripted.summary_usage ].
Proof. reflexivity. Qed.

(** C9, as stated, fails: when the constructor of the options raises, the
    [progress] event announcing initialization has already been yielded
    and precedes the [error] event. *)
Lemma progress_precedes_configuration_error :
  Scripted.ClaudeAgentOptions_rejecting AGENT_CONFIG.tools
    AGENT_CONFIG.system_prompt AGENT_CONFIG.permission_mode
    (max_turns Scripted.request)
  = Raised (Exception "unexpected keyword argument")
  /\ ~ no_progress_before_error
         (stream_agent_progress Scripted.ClaudeAgentOptions_rejecting
            (Scripted.query Scripted.rate_stream) Scripted.now
            Scripted.request).
Proof.
  split; [reflexivity|].
  intros H.
  refine (H [_] _ [] eq_refl _ _ (or_introl eq_refl) _); reflexivity.
Qed.

(** ** The theorems at concrete runs *)

(** The joined response of the run with a tool call, in both modes. *)
Lemma full_response_joins_fragments_witness :
  exists full_response : string,
    (exists r,
        Scripted.buffered Scripted.tool_stream = inr r
        /\ response r = full_response)
    /\ (exists before k d,
           Scripted.streamed Scripted.tool_stream
           = before ++ [create_event Scripted.now k "complete" d]
           /\ dict_get "response" d = Some (JStr full_response))
    /\ (fragments_of Scripted.tool_stream = [] ->
        full_response = "No response received")
    /\ (fragments_of Scripted.tool_stream <> [] ->
        full_response
        = String.concat newline (fragments_of Scripted.tool_stream)).
Proof.
  apply (@full_response_joins_fragments Scripted.Options
           Scripted.ClaudeAgentOptions (Scripted.query Scripted.tool_stream)
           Scripted.now Scripted.request (Scripted.options)).
  - reflexivity.
  - intros e; discriminate.
Defined.

(** The run with a tool call stops at its result message: what the
    script holds after it leaves no trace. *)
Lemma result_message_stops_consumption_witness :
  Scripted.streamed Scripted.tool_stream
  = stamp Scripted.now 0
      [ progress_init; progress_processing;
        Scripted.response_event Scripted.lookup_text;
        Scripted.search_event;
        Scripted.response_event Scripted.rate_text;
        complete_payload
          (Scripted.lookup_text ++ newline ++ Scripted.rate_text)
          Scripted.summary_usage ]
  /\ Scripted.buffered Scripted.tool_stream
     = inr {| status := "success";
              response :=
                Scripted.lookup_text ++ newline ++ Scripted.rate_text;
              usage := Scripted.summary_usage;
              agent_info := agent_info_dict |}.
Proof.
  apply (@result_message_stops_consumption Scripted.Options
           Scripted.ClaudeAgentOptions (Scripted.query Scripted.tool_stream)
           Scripted.now Scripted.request
           (Scripted.options)
           ([ SystemMessage "init" [];
                     AssistantMessage
                       [ TextBlock Scripted.lookup_text; Scripted.thought;
                         ToolUseBlock "WebSearch" Scripted.search_input ];
                     Scripted.tool_result;
                     AssistantMessage [TextBlock Scripted.rate_text] ])
           (Scripted.summary)
           (Scripted.late_messages)); reflexivity.
Defined.


(** A rejected configuration fails the buffered request. *)
Lemma query_error_is_http_500_witness :
  query_agent Scripted.ClaudeAgentOptions_rejecting
    (Scripted.query Scripted.rate_stream) Scripted.request
  = inl {| status_code := 500;
           detail := "Agent execution failed: unexpected keyword argument" |}.
Proof.
  apply (@query_error_is_http_500 Scripted.Options
           Scripted.ClaudeAgentOptions_rejecting
           (Scripted.query Scripted.rate_stream) Scripted.request
           (Exception "unexpected keyword argument")).
  left. reflexivity.
Defined.

(** The events of the message that holds the tool call, in their place. *)
Lemma chunk_events_in_block_order_witness :
  exists earlier chunk later : list StreamEvent,
    Scripted.streamed Scripted.tool_stream = earlier ++ chunk ++ later
    /\ map payload earlier = [ progress_init; progress_processing ]
    /\ map payload chunk
       = [ Scripted.response_event Scripted.lookup_text;
           Scripted.search_event ]
    /\ map payload later
       = [ Scripted.response_event Scripted.rate_text;
           complete_payload
             (Scripted.lookup_text ++ newline ++ Scripted.rate_text)
             Scripted.summary_usage ].
Proof.
  apply (@chunk_events_in_block_order Scripted.Options
           Scripted.ClaudeAgentOptions (Scripted.query Scripted.tool_stream)
           Scripted.now Scripted.request
           (Scripted.options)
           ([SystemMessage "init" []])
           ([ TextBlock Scripted.lookup_text; Scripted.thought;
                         ToolUseBlock "WebSearch" Scripted.search_input ])
           (Scripted.answer_then Scripted.late_messages));
    reflexivity.
Defined.

(** The buffered outcome of the run with a tool call, which has two
    fragments and a result message, and that of an empty stream. *)
Lemma buffered_outcome_on_success_witness :
  Scripted.buffered Scripted.tool_stream
  = inr {| status := "success";
           response := "Looking up the rate." ++ newline ++ "1 USD = 0.92 EUR";
           usage :=
             [ ("duration_ms", JInt 1200);
               ("total_cost_usd", JFloat (2 # 1000)%Q);
               ("num_turns", JInt 1);
               ("session_id", JStr "s1") ];
           agent_info :=
             [ ("name", JStr "Currency Conversion Expert");
               ("role",
                JStr "Financial Data Analyst specializing in currency exchange rates") ]
        |}
  /\ Scripted.buffered SEnd
     = inr {| status := "success";
              response := "No response received";
              usage := [];
              agent_info :=
                [ ("name", JStr "Currency Conversion Expert");
                  ("role",
                   JStr "Financial Data Analyst specializing in currency exchange rates") ]
           |}.
Proof.
  split.
  - apply (@buffered_outcome_on_success Scripted.Options
             Scripted.ClaudeAgentOptions
             (Scripted.query Scripted.tool_stream)
             Scripted.request (Scripted.options)).
    + reflexivity.
    + intros e; discriminate.
  - apply (@buffered_outcome_on_success Scripted.Options
             Scripted.ClaudeAgentOptions (Scripted.query SEnd)
             Scripted.request (Scripted.options)).
    + reflexivity.
    + intros e; discriminate.
Defined.

(** The thinking block of the run with a tool call changes nothing. *)
Lemma unhandled_block_is_skipped_witness :
  Scripted.streamed Scripted.tool_stream
  = Scripted.streamed Scripted.tool_stream_unthinking
  /\ Scripted.buffered Scripted.tool_stream
     = Scripted.buffered Scripted.tool_stream_unthinking.
Proof.
  apply (@unhandled_block_is_skipped Scripted.Options
           Scripted.ClaudeAgentOptions
           (Scripted.query Scripted.tool_stream)
           (Scripted.query Scripted.tool_stream_unthinking)
           Scripted.now Scripted.request
           (Scripted.options)
           ([SystemMessage "init" []])
           ([TextBlock Scripted.lookup_text])
           ([ToolUseBlock "WebSearch" Scripted.search_input])
           (Scripted.thought)
           (Scripted.answer_then Scripted.late_messages));
    reflexivity.
Defined.

(** ** What a client of the stream can rely on *)

Section StampReadings.

Variable now : nat -> string.

Lemma stamp_type (ps : list Payload) (k : nat) :
  map type (stamp now k ps) = map fst ps.
Proof.
  revert k; induction ps as [|p ps IH]; intros k; simpl; auto.
  now rewrite IH.
Qed.

Lemma stamp_contents (ps : list Payload) (k : nat) :
  response_contents (stamp now k ps) = flat_map payload_content ps.
Proof.
  unfold response_contents.
  revert k; induction ps as [|[kind d] ps IH]; intros k; simpl; auto.
  now rewrite IH.
Qed.

End StampReadings.

Lemma block_payloads_content (b : ContentBlock) :
  flat_map payload_content (block_payloads b) = block_texts b.
Proof. destruct b; reflexivity. Qed.

Lemma message_payloads_content (m : Message) :
  flat_map payload_content (message_payloads m) = text_fragments m.
Proof.
  destruct m as [c|c|st d|r]; simpl; auto.
  induction c as [|b c IH]; simpl; auto.
  now rewrite flat_map_app, block_payloads_content, IH.
Qed.

Lemma consumed_payloads_content (ms : list Message) :
  flat_map payload_content (flat_map message_payloads ms)
  = flat_map text_fragments ms.
Proof.
  induction ms as [|m ms IH]; simpl; auto.
  now rewrite flat_map_app, message_payloads_content, IH.
Qed.

Lemma block_payloads_length (b : ContentBlock) :
  length (block_payloads b) = if is_text_or_tool_use b then 1 else 0.
Proof. destruct b; reflexivity. Qed.

Lemma message_payloads_length (m : Message) :
  length (message_payloads m) = length (handled_blocks m).
Proof.
  destruct m as [c|c|st d|r]; simpl; auto.
  induction c as [|b c IH]; simpl; auto.
  rewrite length_app, block_payloads_length, IH.
  destruct (is_text_or_tool_use b); reflexivity.
Qed.

Lemma consumed_payloads_length (ms : list Message) :
  length (flat_map message_payloads ms)
  = length (flat_map handled_blocks ms).
Proof.
  induction ms as [|m ms IH]; simpl; auto.
  now rewrite !length_app, message_payloads_length, IH.
Qed.

(** Kinds that are all [response] or [tool_use], closed by one more kind,
    are in order exactly when that kind is terminal. *)
Lemma relayed_kinds_ok_snoc (kinds : list string) (last : string) :
  forallb (fun k => String.eqb k "response" || String.eqb k "tool_use")
    kinds = true ->
  relayed_kinds_ok (kinds ++ [last]) = terminal_kind last.
Proof.
  induction kinds as [|k kinds IH]; intros H; [reflexivity|].
  simpl in H. apply andb_true_iff in H as [Hk Hks].
  change ((k :: kinds) ++ [last]) with (k :: (kinds ++ [last])).
  cbn [relayed_kinds_ok].
  destruct (kinds ++ [last]) as [|k' rest] eqn:E.
  - now destruct kinds.
  - rewrite Hk. cbn [andb]. now apply IH.
Qed.

Lemma block_payloads_relayed (b : ContentBlock) :
  forallb (fun k => String.eqb k "response" || String.eqb k "tool_use")
    (map fst (block_payloads b)) = true.
Proof. destruct b; reflexivity. Qed.

Lemma message_payloads_relayed (m : Message) :
  forallb (fun k => String.eqb k "response" || String.eqb k "tool_use")
    (map fst (message_payloads m)) = true.
Proof.
  destruct m as [c|c|st d|r]; try reflexivity.
  cbn [message_payloads].
  induction c as [|b c IHc]; [reflexivity|].
  cbn [flat_map]. rewrite map_app, forallb_app.
  rewrite block_payloads_relayed. exact IHc.
Qed.

Lemma consumed_payloads_relayed (ms : list Message) :
  forallb (fun k => String.eqb k "response" || String.eqb k "tool_use")
    (map fst (flat_map message_payloads ms)) = true.
Proof.
  induction ms as [|m ms IH]; [reflexivity|].
  cbn [flat_map]. rewrite map_app, forallb_app.
  rewrite message_payloads_relayed. exact IH.
Qed.

Lemma terminal_payload_kind (s : AgentStream) :
  terminal_kind (fst (terminal_payload s)) = true.
Proof. unfold terminal_payload. destruct (termination s); reflexivity. Qed.

(** ** Joined strings *)

Lemma append_empty (a b : string) :
  (a ++ b)%string = "" -> a = "" /\ b = "".
Proof. destruct a; simpl; [auto | discriminate]. Qed.

Lemma has_newline_append (a b : string) :
  has_newline (a ++ b) = has_newline a || has_newline b.
Proof.
  induction a as [|c a IH]; simpl; auto.
  now rewrite IH, orb_assoc.
Qed.

Lemma concat_two_has_newline (x y : string) (l : list string) :
  has_newline (String.concat newline (x :: y :: l)) = true.
Proof.
  cbn [String.concat]. rewrite !has_newline_append.
  simpl. now rewrite orb_true_r.
Qed.

Lemma join_or_default_empty (l : list string) :
  join_or_default l = "" <-> l = [""].
Proof.
  split; [|intros ->; reflexivity].
  destruct l as [|x [|y l]]; cbn [join_or_default].
  - discriminate.
  - cbn [String.concat]. now intros ->.
  - intros H. pose proof (concat_two_has_newline x y l) as N.
    rewrite H in N. discriminate.
Qed.

Lemma join_or_default_default (l : list string) :
  join_or_default l = "No response received"
  <-> l = [] \/ l = ["No response received"].
Proof.
  split; [|intros [-> | ->]; reflexivity].
  destruct l as [|x [|y l]]; cbn [join_or_default].
  - auto.
  - cbn [String.concat]. intros ->; auto.
  - intros H. pose proof (concat_two_has_newline x y l) as N.
    rewrite H in N. discriminate.
Qed.

(** ** Further properties of the two relays *)

Section RelayClient.

Variable Options : Type.
Variable ClaudeAgentOptions :
  list string -> string -> string -> Z -> Outcome Options.
Variable query : string -> Options -> AgentStream.
Variable now : nat -> string.

Local Abbreviation stream_agent_progress :=
  (stream_agent_progress ClaudeAgentOptions query now).
Local Abbreviation query_agent := (query_agent ClaudeAgentOptions query).
Local Abbreviation built request :=
  (ClaudeAgentOptions AGENT_CONFIG.tools AGENT_CONFIG.system_prompt
     AGENT_CONFIG.permission_mode (max_turns request)).

(** A buffered run returns an outcome only if the options were built and
    the stream did not raise before its end or its result message. *)
Lemma query_agent_success (request : QueryRequest) (r : QueryResponse) :
  query_agent request = inr r ->
  exists options,
    built request = Ok options
    /\ (forall e, termination (query (prompt request) options) <> Failed e)
    /\ r = {| status := "success";
              response :=
                join_or_default (fragments_of (query (prompt request) options));
              usage := recorded_usage (query (prompt request) options);
              agent_info := agent_info_dict |}.
Proof.
  unfold query_agent. rewrite query_body_spec. unfold buffered_outcome.
  destruct (built request) as [options|e]; [|discriminate].
  intros H. exists options. split; [reflexivity|].
  destruct (termination (query (prompt request) options)) as [|res|e];
    try discriminate; (split; [discriminate | congruence]).
Qed.

(** X1: the response of the [complete] event is what the client has
    already received piecewise: the contents of the [response] events
    before it joined by newlines in their order, or the text
    [No response received] if there were none.  Every run ends with that
    event or with an [error] event. *)
Theorem complete_response_joins_streamed_contents (request : QueryRequest) :
  exists (before : list StreamEvent) (last : StreamEvent),
    stream_agent_progress request = before ++ [last]
    /\ (type last = "error"
        \/ (type last = "complete"
            /\ dict_get "response" (data last)
               = Some (JStr
                         match response_contents before with
                         | [] => "No response received"
                         | _ :: _ =>
                             String.concat newline
                               (response_contents before)
                         end))).
Proof.
  destruct (stream_agent_progress_shape ClaudeAgentOptions query now request)
    as [Hrun _].
  eexists; eexists; split; [exact Hrun|].
  rewrite stamp_contents. unfold run_intermediate, run_terminal.
  destruct (built request) as [options|e]; [|left; reflexivity].
  cbn [flat_map payload_content progress_init progress_processing fst app].
  cbn. rewrite consumed_payloads_content.
  unfold terminal_payload.
  destruct (termination (query (prompt request) options));
    [right; split; reflexivity .. | left; reflexivity].
Qed.

(** X2: the number of events of a streaming run: two when the options
    cannot be built; otherwise the two [progress] events, one event per
    text block and tool call of the consumed messages, and the terminal
    event. *)
Theorem streamed_event_count (request : QueryRequest) :
  length (stream_agent_progress request)
  = match built request with
    | Raised _ => 2
    | Ok options =>
        3 + length (flat_map handled_blocks
                      (consumed (query (prompt request) options)))
    end.
Proof.
  rewrite stream_agent_progress_spec, stamp_length, length_app.
  unfold run_intermediate.
  destruct (built request) as [options|e]; [|reflexivity].
  cbn [length]. rewrite consumed_payloads_length. lia.
Qed.

(** X3: the kinds of the events of every streaming run follow one
    protocol: [progress], then either [error] alone, or [progress], any
    number of [response] and [tool_use] events, and one of [complete] and
    [error]. *)
Theorem event_kinds_follow_protocol (request : QueryRequest) :
  protocol_ok (map type (stream_agent_progress request)) = true.
Proof.
  rewrite stream_agent_progress_spec, stamp_type, map_app.
  unfold run_intermediate, run_terminal.
  destruct (built request) as [options|e]; [|reflexivity].
  cbn [map app fst progress_init progress_processing protocol_ok].
  cbn [String.eqb Ascii.eqb Bool.eqb andb orb].
  rewrite relayed_kinds_ok_snoc by apply consumed_payloads_relayed.
  apply terminal_payload_kind.
Qed.

(** X5: when the stream raises after some messages, the streaming relay
    has already delivered their events and keeps them before the [error]
    event, while the buffered relay returns none of their text. *)
Theorem failure_keeps_streamed_events (request : QueryRequest)
        (options : Options) (ms : list Message) (e : PyException) :
  built request = Ok options ->
  existsb is_result ms = false ->
  query (prompt request) options = yields ms (SRaise e) ->
  stream_agent_progress request
  = stamp now 0
      (progress_init :: progress_processing
         :: flat_map message_payloads ms ++ [error_payload e])
  /\ query_agent request
     = inl {| status_code := 500;
              detail := "Agent execution failed: " ++ str e |}.
Proof.
  intros Hb Hms Hq.
  assert (Hc : consumed (query (prompt request) options) = ms).
  { rewrite Hq, consumed_yields by exact Hms. apply app_nil_r. }
  assert (Ht : termination (query (prompt request) options) = Failed e).
  { rewrite Hq, termination_yields by exact Hms. reflexivity. }
  split.
  - rewrite stream_agent_progress_spec, Hb.
    unfold run_intermediate, run_terminal, terminal_payload.
    now rewrite Hc, Ht.
  - unfold query_agent. rewrite query_body_spec, Hb.
    unfold buffered_outcome. now rewrite Ht.
Qed.

(** X6: the buffered response is the empty string exactly when the run
    consumed one text block and its text is empty: an empty fragment
    counts as a response and the default text is not used. *)
Theorem empty_response_iff_one_empty_fragment (request : QueryRequest)
        (options : Options) (r : QueryResponse) :
  built request = Ok options ->
  query_agent request = inr r ->
  (response r = "" <-> fragments_of (query (prompt request) options) = [""]).
Proof.
  intros Hb Hr.
  destruct (query_agent_success request Hr) as (options' & Hb' & _ & ->).
  rewrite Hb in Hb'. injection Hb' as <-.
  apply join_or_default_empty.
Qed.

(** X7: the default text is ambiguous: the buffered response is
    [No response received] exactly when no text block was consumed, or
    when the only one consumed holds that very text. *)
Theorem default_response_iff (request : QueryRequest)
        (options : Options) (r : QueryResponse) :
  built request = Ok options ->
  query_agent request = inr r ->
  (response r = "No response received"
   <-> fragments_of (query (prompt request) options) = []
       \/ fragments_of (query (prompt request) options)
          = ["No response received"]).
Proof.
  intros Hb Hr.
  destruct (query_agent_success request Hr) as (options' & Hb' & _ & ->).
  rewrite Hb in Hb'. injection Hb' as <-.
  apply join_or_default_default.
Qed.

(** X8: the usage of a buffered outcome tells whether a result message
    arrived: it is empty exactly when the stream ended without one, and
    otherwise holds the four usage keys in their order. *)
Theorem usage_tells_whether_result_arrived (request : QueryRequest)
        (options : Options) (r : QueryResponse) :
  built request = Ok options ->
  query_agent request = inr r ->
  (usage r = []
   <-> termination (query (prompt request) options) = Exhausted)
  /\ (usage r <> [] -> map fst (usage r) = usage_keys).
Proof.
  intros Hb Hr.
  destruct (query_agent_success request Hr) as (options' & Hb' & Hok & ->).
  rewrite Hb in Hb'. injection Hb' as <-.
  cbn [usage]. unfold recorded_usage.
  destruct (termination (query (prompt request) options)) as [|res|e].
  - repeat split; auto. intros H; now destruct H.
  - repeat split; try discriminate.
  - now destruct (Hok e).
Qed.

(** X9: the persona a run reports is the one [GET /info] reports: the
    [agent_info] of every buffered outcome and of every [complete] event
    holds the [name] and [role] entries of [get_agent_info]. *)
Theorem agent_info_matches_info_endpoint (request : QueryRequest) :
  (forall r, query_agent request = inr r ->
             agent_info r = dict_restrict ["name"; "role"] get_agent_info)
  /\ (forall ev, In ev (stream_agent_progress request) ->
                 type ev = "complete" ->
                 dict_get "agent_info" (data ev)
                 = Some (JDict (dict_restrict ["name"; "role"]
                                  get_agent_info))).
Proof.
  split.
  - intros r Hr.
    destruct (query_agent_success request Hr) as (options & _ & _ & ->).
    reflexivity.
  - intros ev Hin Hty.
    destruct (stream_agent_progress_shape ClaudeAgentOptions query now
                request) as [Hrun Hbody].
    rewrite Hrun in Hin. apply in_app_or in Hin as [Hin | [<- | []]].
    + rewrite forallb_forall in Hbody. specialize (Hbody ev Hin).
      unfold is_terminal, terminal_kind in Hbody. rewrite Hty in Hbody.
      discriminate.
    + revert Hty. unfold run_terminal, terminal_payload.
      destruct (built request) as [options|e]; [|discriminate].
      destruct (termination (query (prompt request) options));
        [reflexivity .. | discriminate].
Qed.

End RelayClient.

(** ** Runs over related streams *)

Section RelatedStreams.

Variable Options : Type.
Variable ClaudeAgentOptions :
  list string -> string -> string -> Z -> Outcome Options.
Variable now : nat -> string.

Local Abbreviation streamed q :=
  (stream_agent_progress ClaudeAgentOptions q now).
Local Abbreviation answered q := (query_agent ClaudeAgentOptions q).
Local Abbreviation built request :=
  (ClaudeAgentOptions AGENT_CONFIG.tools AGENT_CONFIG.system_prompt
     AGENT_CONFIG.permission_mode (max_turns request)).

(** Both relays see a stream only through the events of its consumed
    messages, its fragments and its termination. *)
Lemma runs_agree_on_observation (query1 query2 : string -> Options -> AgentStream)
      (request : QueryRequest) (options : Options) :
  built request = Ok options ->
  flat_map message_payloads (consumed (query1 (prompt request) options))
  = flat_map message_payloads (consumed (query2 (prompt request) options)) ->
  fragments_of (query1 (prompt request) options)
  = fragments_of (query2 (prompt request) options) ->
  termination (query1 (prompt request) options)
  = termination (query2 (prompt request) options) ->
  streamed query1 request = streamed query2 request
  /\ answered query1 request = answered query2 request.
Proof.
  intros Hb Ep Ef Et. split.
  - rewrite !stream_agent_progress_spec, Hb.
    unfold run_intermediate, run_terminal, terminal_payload, recorded_usage.
    now rewrite Ep, Ef, Et.
  - unfold query_agent. rewrite !query_body_spec, Hb.
    unfold buffered_outcome, recorded_usage.
    now rewrite Ef, Et.
Qed.

(** X10: a message that is neither an assistant message nor a result
    message is dropped in both modes: the stream with it, wherever it
    stands, gives the same events and the same buffered result as the
    stream without it. *)
Theorem unhandled_message_is_skipped
        (query_with query_without : string -> Options -> AgentStream)
        (request : QueryRequest) (options : Options)
        (pre : list Message) (m : Message) (rest : AgentStream) :
  is_unhandled_message m = true ->
  built request = Ok options ->
  query_with (prompt request) options = yields pre (SYield m rest) ->
  query_without (prompt request) options = yields pre rest ->
  streamed query_with request = streamed query_without request
  /\ answered query_with request = answered query_without request.
Proof.
  intros Hm Hb Hwith Hwithout.
  destruct (yields_observation pre (SYield m rest) rest) as (Ep & Ef & Et);
    try (destruct m; try discriminate; reflexivity).
  apply runs_agree_on_observation with (options := options); auto;
    now rewrite Hwith, Hwithout.
Qed.

(** X11: a tool call that is consumed adds its [tool_use] event to the
    stream of events, at its place, and nothing else: the other events,
    the response and the usage are those of the stream without the call,
    and the buffered result is the same. *)
Theorem tool_call_only_adds_its_event
        (query_with query_without : string -> Options -> AgentStream)
        (request : QueryRequest) (options : Options)
        (pre : list Message) (before after : list ContentBlock)
        (name : string) (input : dict) (rest : AgentStream) :
  built request = Ok options ->
  existsb is_result pre = false ->
  query_with (prompt request) options
  = yields pre
      (SYield (AssistantMessage (before ++ ToolUseBlock name input :: after))
         rest) ->
  query_without (prompt request) options
  = yields pre (SYield (AssistantMessage (before ++ after)) rest) ->
  answered query_with request = answered query_without request
  /\ exists earlier later : list Payload,
       map payload (streamed query_with request)
       = earlier
           ++ [ ("tool_use",
                 [ ("tool", JStr name);
                   ("input", JDict input);
                   ("message", JStr (msg_using_prefix ++ name ++ " tool..."));
                   ("status", JStr "executing") ]) ]
           ++ later
       /\ map payload (streamed query_without request) = earlier ++ later.
Proof.
  intros Hb Hpre Hwith Hwithout.
  assert (Ef : fragments_of (query_with (prompt request) options)
               = fragments_of (query_without (prompt request) options)).
  { unfold fragments_of. rewrite Hwith, Hwithout.
    rewrite !consumed_yields by exact Hpre.
    cbn [consumed]. rewrite !flat_map_app. cbn [flat_map text_fragments].
    now rewrite !flat_map_app. }
  assert (Et : termination (query_with (prompt request) options)
               = termination (query_without (prompt request) options)).
  { rewrite Hwith, Hwithout.
    now rewrite !termination_yields by exact Hpre. }
  split.
  - unfold query_agent. rewrite !query_body_spec, Hb.
    unfold buffered_outcome, recorded_usage. now rewrite Ef, Et.
  - rewrite !stream_agent_progress_spec, !stamp_payload, Hb.
    unfold run_intermediate, run_terminal, terminal_payload, recorded_usage.
    rewrite Ef, Et, Hwith, Hwithout.
    rewrite !consumed_yields by exact Hpre.
    cbn [consumed]. rewrite !flat_map_app.
    cbn [flat_map message_payloads]. rewrite !flat_map_app.
    cbn [flat_map block_payloads].
    eexists (progress_init :: progress_processing
               :: flat_map message_payloads pre
               ++ flat_map block_payloads before).
    eexists. split.
    + cbn [app]. rewrite <- !app_assoc. reflexivity.
    + cbn [app]. rewrite <- !app_assoc. reflexivity.
Qed.

(** X12: what has been streamed is settled: two streams that begin with
    the same messages give the same first events, timestamps included,
    whatever either stream does afterwards. *)
Theorem streamed_prefix_is_settled
        (query1 query2 : string -> Options -> AgentStream)
        (request : QueryRequest) (options : Options)
        (pre : list Message) (rest1 rest2 : AgentStream) :
  built request = Ok options ->
  existsb is_result pre = false ->
  query1 (prompt request) options = yields pre rest1 ->
  query2 (prompt request) options = yields pre rest2 ->
  firstn (2 + length (flat_map message_payloads pre))
    (streamed query1 request)
  = stamp now 0
      (progress_init :: progress_processing :: flat_map message_payloads pre)
  /\ firstn (2 + length (flat_map message_payloads pre))
       (streamed query1 request)
     = firstn (2 + length (flat_map message_payloads pre))
         (streamed query2 request).
Proof.
  intros Hb Hpre H1 H2.
  assert (P : forall q rest,
             q (prompt request) options = yields pre rest ->
             firstn (2 + length (flat_map message_payloads pre))
               (streamed q request)
             = stamp now 0
                 (progress_init :: progress_processing
                    :: flat_map message_payloads pre)).
  { intros q rest Hq.
    rewrite stream_agent_progress_spec, Hb.
    unfold run_intermediate. rewrite Hq, consumed_yields by exact Hpre.
    rewrite flat_map_app.
    set (ps := flat_map message_payloads pre).
    replace ((progress_init :: progress_processing
                :: ps ++ flat_map message_payloads (consumed rest))
               ++ [run_terminal (Ok options) (q (prompt request))])
      with ((progress_init :: progress_processing :: ps)
              ++ (flat_map message_payloads (consumed rest)
                    ++ [run_terminal (Ok options) (q (prompt request))]))
      by (cbn [app]; now rewrite <- !app_assoc).
    rewrite stamp_app, firstn_app, stamp_length.
    cbn [length]. rewrite Nat.sub_diag, firstn_O, app_nil_r.
    apply firstn_all2. rewrite stamp_length. cbn [length]. lia. }
  split.
  - now apply P with (rest := rest1).
  - rewrite (P query1 rest1 H1), (P query2 rest2 H2). reflexivity.
Qed.


End RelatedStreams.

(** ** The further properties at concrete runs *)

(** The run with a tool call: two partial responses, and their join in
    the [complete] event. *)
Lemma complete_response_joins_streamed_contents_witness :
  exists (before : list StreamEvent) (last : StreamEvent),
    Scripted.streamed Scripted.tool_stream = before ++ [last]
    /\ response_contents before
       = [ "Looking up the rate."; "1 USD = 0.92 EUR" ]
    /\ type last = "complete"
    /\ dict_get "response" (data last)
       = Some (JStr ("Looking up the rate." ++ newline ++ "1 USD = 0.92 EUR")).
Proof.
  destruct (@complete_response_joins_streamed_contents Scripted.Options
              Scripted.ClaudeAgentOptions
              (Scripted.query Scripted.tool_stream) Scripted.now
              Scripted.request)
    as (before & last & Hrun & Hlast).
  exists before, last.
  assert (Hsplit :
            Scripted.streamed Scripted.tool_stream
            = stamp Scripted.now 0
                [ progress_init; progress_processing;
                  Scripted.response_event Scripted.lookup_text;
                  Scripted.search_event;
                  Scripted.response_event Scripted.rate_text ]
                ++ [create_event Scripted.now 5 "complete"
                      (snd (complete_payload
                              (Scripted.lookup_text ++ newline
                                 ++ Scripted.rate_text)
                              Scripted.summary_usage))])
    by reflexivity.
  split; [exact Hrun|].
  fold (Scripted.streamed Scripted.tool_stream) in Hrun.
  rewrite Hsplit in Hrun. apply app_inj_tail in Hrun as [Hb Hl].
  rewrite <- Hb, <- Hl in Hlast. rewrite <- Hb, <- Hl.
  split; [reflexivity|]. split; [reflexivity|].
  destruct Hlast as [Herr | [_ Hresp]]; [discriminate Herr | exact Hresp].
Defined.

(** The broken stream: its fragment is streamed, then the error. *)
Lemma failure_keeps_streamed_events_witness :
  Scripted.streamed Scripted.broken_stream
  = stamp Scripted.now 0
      [ progress_init; progress_processing;
        Scripted.response_event Scripted.lookup_text;
        error_payload (Exception "connection reset") ]
  /\ Scripted.buffered Scripted.broken_stream
     = inl {| status_code := 500;
              detail := "Agent execution failed: connection reset" |}.
Proof.
  apply (@failure_keeps_streamed_events Scripted.Options
           Scripted.ClaudeAgentOptions
           (Scripted.query Scripted.broken_stream) Scripted.now
           Scripted.request Scripted.options
           [AssistantMessage [TextBlock Scripted.lookup_text]]
           (Exception "connection reset")); reflexivity.
Defined.

(** One empty text block: the response is empty, not the default. *)
Lemma empty_response_iff_one_empty_fragment_witness :
  "" = ""
  <-> fragments_of (SYield (AssistantMessage [TextBlock ""]) SEnd) = [""].
Proof.
  apply (@empty_response_iff_one_empty_fragment Scripted.Options
           Scripted.ClaudeAgentOptions
           (Scripted.query (SYield (AssistantMessage [TextBlock ""]) SEnd))
           Scripted.request Scripted.options
           {| status := "success"; response := ""; usage := [];
              agent_info := agent_info_dict |}); reflexivity.
Defined.

(** An empty stream gives the default text. *)
Lemma default_response_iff_witness :
  "No response received" = "No response received"
  <-> fragments_of SEnd = []
      \/ fragments_of SEnd = ["No response received"].
Proof.
  apply (@default_response_iff Scripted.Options
           Scripted.ClaudeAgentOptions (Scripted.query SEnd)
           Scripted.request Scripted.options
           {| status := "success"; response := "No response received";
              usage := []; agent_info := agent_info_dict |}); reflexivity.
Defined.

(** The rate scenario ends with a result message: its usage is not empty. *)
Lemma usage_tells_whether_result_arrived_witness :
  (Scripted.summary_usage = []
   <-> termination Scripted.rate_stream = Exhausted)
  /\ (Scripted.summary_usage <> [] ->
      map fst Scripted.summary_usage = usage_keys).
Proof.
  apply (@usage_tells_whether_result_arrived Scripted.Options
           Scripted.ClaudeAgentOptions
           (Scripted.query Scripted.rate_stream)
           Scripted.request Scripted.options
           {| status := "success"; response := Scripted.rate_text;
              usage := Scripted.summary_usage;
              agent_info := agent_info_dict |}); reflexivity.
Defined.

(** The persona of the rate scenario. *)
Lemma agent_info_matches_info_endpoint_witness :
  agent_info_dict = dict_restrict ["name"; "role"] get_agent_info.
Proof.
  apply (proj1 (@agent_info_matches_info_endpoint Scripted.Options
                  Scripted.ClaudeAgentOptions
                  (Scripted.query Scripted.rate_stream) Scripted.now
                  Scripted.request)
           {| status := "success"; response := Scripted.rate_text;
              usage := Scripted.summary_usage;
              agent_info := agent_info_dict |}).
  reflexivity.
Defined.

(** The system message that opens the run with a tool call. *)
Lemma unhandled_message_is_skipped_witness :
  Scripted.streamed Scripted.tool_stream
  = Scripted.streamed
      (SYield (AssistantMessage
                 [ TextBlock Scripted.lookup_text; Scripted.thought;
                   ToolUseBlock "WebSearch" Scripted.search_input ])
         (Scripted.answer_then Scripted.late_messages))
  /\ Scripted.buffered Scripted.tool_stream
     = Scripted.buffered
         (SYield (AssistantMessage
                    [ TextBlock Scripted.lookup_text; Scripted.thought;
                      ToolUseBlock "WebSearch" Scripted.search_input ])
            (Scripted.answer_then Scripted.late_messages)).
Proof.
  apply (@unhandled_message_is_skipped Scripted.Options
           Scripted.ClaudeAgentOptions Scripted.now
           (Scripted.query Scripted.tool_stream)
           (Scripted.query
              (SYield (AssistantMessage
                         [ TextBlock Scripted.lookup_text; Scripted.thought;
                           ToolUseBlock "WebSearch" Scripted.search_input ])
                 (Scripted.answer_then Scripted.late_messages)))
           Scripted.request Scripted.options
           [] (SystemMessage "init" [])
           (SYield (AssistantMessage
                      [ TextBlock Scripted.lookup_text; Scripted.thought;
                        ToolUseBlock "WebSearch" Scripted.search_input ])
              (Scripted.answer_then Scripted.late_messages)));
    reflexivity.
Defined.

(** The search of the run with a tool call, taken out. *)
Lemma tool_call_only_adds_its_event_witness :
  Scripted.buffered Scripted.tool_stream_unthinking
  = Scripted.buffered
      (SYield (SystemMessage "init" [])
         (SYield (AssistantMessage [TextBlock Scripted.lookup_text])
            (Scripted.answer_then Scripted.late_messages)))
  /\ exists earlier later : list Payload,
       map payload (Scripted.streamed Scripted.tool_stream_unthinking)
       = earlier ++ [Scripted.search_event] ++ later
       /\ map payload
            (Scripted.streamed
               (SYield (SystemMessage "init" [])
                  (SYield (AssistantMessage [TextBlock Scripted.lookup_text])
                     (Scripted.answer_then Scripted.late_messages))))
          = earlier ++ later.
Proof.
  apply (@tool_call_only_adds_its_event Scripted.Options
           Scripted.ClaudeAgentOptions Scripted.now
           (Scripted.query Scripted.tool_stream_unthinking)
           (Scripted.query
              (SYield (SystemMessage "init" [])
                 (SYield (AssistantMessage [TextBlock Scripted.lookup_text])
                    (Scripted.answer_then Scripted.late_messages))))
           Scripted.request Scripted.options
           [SystemMessage "init" []]
           [TextBlock Scripted.lookup_text] []
           "WebSearch" Scripted.search_input
           (Scripted.answer_then Scripted.late_messages)); reflexivity.
Defined.

(** The broken stream and the rate scenario's answer after the same first
    message: the first three events are the same. *)
Lemma streamed_prefix_is_settled_witness :
  firstn 3 (Scripted.streamed Scripted.broken_stream)
  = stamp Scripted.now 0
      [ progress_init; progress_processing;
        Scripted.response_event Scripted.lookup_text ]
  /\ firstn 3 (Scripted.streamed Scripted.broken_stream)
     = firstn 3
         (Scripted.streamed
            (SYield (AssistantMessage [TextBlock Scripted.lookup_text])
               (Scripted.answer_then SEnd))).
Proof.
  apply (@streamed_prefix_is_settled Scripted.Options
           Scripted.ClaudeAgentOptions Scripted.now
           (Scripted.query Scripted.broken_stream)
           (Scripted.query
              (SYield (AssistantMessage [TextBlock Scripted.lookup_text])
                 (Scripted.answer_then SEnd)))
           Scripted.request Scripted.options
           [AssistantMessage [TextBlock Scripted.lookup_text]]
           (SRaise (Exception "connection reset"))
           (Scripted.answer_then SEnd)); reflexivity.
Defined.

